(** * Band-structure parameter model of [struct.py] / [equat.py]

    Shallow embedding of the material database ([PURESEM], [BINALLOY]),
    the pure-semiconductor resolver ([mater_pure]) and the two-component
    alloy resolver ([mater_alloy_double]).

    Numbers: Python floats are modelled as exact rationals [Q].  Every
    numeric fact stated below (endpoint interpolation, Varshni at T = 0,
    [1.46 - 0.341]) is also exact in IEEE double arithmetic for the
    database values, so no rounding is hidden by the choice.

    Dictionaries are [gmap string val]; a value stored in a dictionary is
    a number or a tuple of numbers (the mass tuples).  [dict.get] returns
    [option val], [None] being Python's [None].  Python exceptions are the
    constructors of [error]:
    - [KeyError] on [PURESEM[name]]      : [UnknownMaterial]
    - [KeyError] on [BINALLOY[name]]     : [UnknownAlloy]
    - [TypeError] with a [None] operand  : [MissingParameter]
    - [ZeroDivisionError]                : [ZeroDivision]
    - other [TypeError]s                 : [TypeMismatch]
    - [IndexError] on a tuple            : [IndexOutOfRange] *)

From Stdlib Require Import QArith Ascii String.
From stdpp Require Import base gmap strings list.

Open Scope Q_scope.

(** ** Python values, errors and the error monad *)

Inductive val : Type :=
  | VNum (q : Q)
  | VTup (l : list Q).

Abbreviation dict := (gmap string val).

Inductive error : Type :=
  | UnknownMaterial
  | UnknownAlloy
  | MissingParameter
  | ZeroDivision
  | TypeMismatch
  | IndexOutOfRange.

Inductive res (A : Type) : Type :=
  | Ok (a : A)
  | Err (e : error).
Arguments Ok {A} a.
Arguments Err {A} e.

Definition bind {A B : Type} (m : res A) (k : A -> res B) : res B :=
  match m with
  | Ok a => k a
  | Err e => Err e
  end.

Notation "'let*' x ':=' m 'in' k" := (bind m (fun x => k))
  (at level 200, x name, m at level 100, k at level 200).

(** [d.get(k, default)] *)
Definition get (d : dict) (k : string) (default : option val) : option val :=
  match d !! k with
  | Some v => Some v
  | None => default
  end.

(** Binary arithmetic on the operands as Python sees them. *)
Definition py_binop (f : Q -> Q -> res val) (a b : option val) : res val :=
  match a, b with
  | None, _ | _, None => Err MissingParameter
  | Some (VNum p), Some (VNum q) => f p q
  | _, _ => Err TypeMismatch
  end.

(** [a + b]; tuple + tuple is concatenation. *)
Definition py_add (a b : option val) : res val :=
  match a, b with
  | Some (VTup l1), Some (VTup l2) => Ok (VTup (l1 ++ l2))
  | _, _ => py_binop (fun p q => Ok (VNum (p + q))) a b
  end.

Definition py_sub : option val -> option val -> res val :=
  py_binop (fun p q => Ok (VNum (p - q))).

Definition py_mul : option val -> option val -> res val :=
  py_binop (fun p q => Ok (VNum (p * q))).

Definition py_div : option val -> option val -> res val :=
  py_binop (fun p q => if Qeq_bool q 0 then Err ZeroDivision
                       else Ok (VNum (p / q))).

(** [a[0]] *)
Definition py_index0 (a : option val) : res val :=
  match a with
  | None => Err MissingParameter
  | Some (VNum _) => Err TypeMismatch
  | Some (VTup []) => Err IndexOutOfRange
  | Some (VTup (h :: _)) => Ok (VNum h)
  end.

Definition num (q : Q) : option val := Some (VNum q).

(** ** [equat.varshni]

    [return (eg - a * temp**2 / (temp + b))]: Python evaluates the
    product, then the sum, then the quotient, then the difference. *)
Definition varshni (temp : Q) (eg a b : option val) : res val :=
  let* p := py_mul a (num (temp * temp)) in
  let* s := py_add (num temp) b in
  let* d := py_div (Some p) (Some s) in
  py_sub eg (Some d).

(** ** Material database *)

Record alloy_rec : Type := {
  sem : string * string;
  abow : dict
}.

Abbreviation pure_db := (gmap string dict).
Abbreviation alloy_db := (gmap string alloy_rec).

Definition dec (n d : Z) : Q := Qmake n (Z.to_pos d).

Definition GaAs_rec : dict :=
  list_to_map [
    ("lat", VNum (dec 565325 100000)); ("lat_temp", VNum (dec 388 10000000));
    ("VBen", VNum (dec 146 100)); ("VBSO", VNum (dec 341 1000));
    ("BGGen", VNum (dec 1519 1000)); ("BGGa", VNum (dec 5405 10000000));
    ("BGGb", VNum (dec 204 1));
    ("BGLen", VNum (dec 1815 1000)); ("BGLa", VNum (dec 605 1000000));
    ("BGLb", VNum (dec 204 1));
    ("BGXen", VNum (dec 1981 1000)); ("BGXa", VNum (dec 46 100000));
    ("BGXb", VNum (dec 204 1));
    ("CBGdeg", VNum 2); ("CBLdeg", VNum 8); ("CBXdeg", VNum 6);
    ("CBGmass", VTup [dec 67 1000; dec 67 1000; dec 67 1000]);
    ("CBLmass", VTup [dec 19 10; dec 754 10000; dec 754 10000]);
    ("CBXmass", VTup [dec 13 10; dec 23 100; dec 23 100]);
    ("Lutting", VTup [dec 698 100; dec 206 100; dec 293 100])].

Definition AlAs_rec : dict :=
  list_to_map [
    ("lat", VNum (dec 56611 10000)); ("lat_temp", VNum (dec 29 1000000));
    ("VBen", VNum (dec 95 100)); ("VBSO", VNum (dec 28 100));
    ("BGGen", VNum (dec 3099 1000)); ("BGGa", VNum (dec 885 1000000));
    ("BGGb", VNum (dec 530 1));
    ("BGLen", VNum (dec 246 100)); ("BGLa", VNum (dec 605 1000000));
    ("BGLb", VNum (dec 204 1));
    ("BGXen", VNum (dec 224 100)); ("BGXa", VNum (dec 7 10000));
    ("BGXb", VNum (dec 530 1));
    ("CBGdeg", VNum 2); ("CBLdeg", VNum 8); ("CBXdeg", VNum 6);
    ("CBGmass", VTup [dec 15 100; dec 15 100; dec 15 100]);
    ("CBLmass", VTup [dec 132 100; dec 15 100; dec 15 100]);
    ("CBXmass", VTup [dec 97 100; dec 22 100; dec 22 100]);
    ("Lutting", VTup [dec 376 100; dec 82 100; dec 142 100])].

Definition PURESEM : pure_db :=
  <["GaAs" := GaAs_rec]> (<["AlAs" := AlAs_rec]> ∅).

Definition AlGaAs_rec : alloy_rec := {|
  sem := ("AlAs", "GaAs");
  abow := list_to_map [("VBbow", VNum 0); ("BGGbow", VNum 0);
                       ("BGLbow", VNum 0); ("BGXbow", VNum 0)]
|}.

Definition BINALLOY : alloy_db := <["AlGaAs" := AlGaAs_rec]> ∅.

(** ** [mater_pure]

    The constructor stores the name and the override dictionary and looks
    nothing up; every query indexes [PURESEM[self.name]] afresh, eagerly,
    as the default argument of [self.param.get]. *)

Record mater_pure : Type := {
  name : string;
  param : dict
}.

(** [PURESEM[name]] *)
Definition lookup_pure (db : pure_db) (n : string) : res dict :=
  match db !! n with
  | Some r => Ok r
  | None => Err UnknownMaterial
  end.

(** [self.param.get(k, PURESEM[self.name].get(k))] *)
Definition param_get (db : pure_db) (m : mater_pure) (k : string) : res (option val) :=
  let* r := lookup_pure db (name m) in
  Ok (get (param m) k (r !! k)).

(** [self.param.get('EnShift', 0.0)] *)
Definition en_shift (m : mater_pure) : option val :=
  get (param m) "EnShift" (num 0).

Section Pure.
Variable db : pure_db.

Definition VBH (m : mater_pure) : res val :=
  let* vb := param_get db m "VBen" in
  py_add vb (en_shift m).

Definition VBL (m : mater_pure) : res val :=
  let* vb := param_get db m "VBen" in
  py_add vb (en_shift m).

Definition VBSO (m : mater_pure) : res val :=
  let* vb := param_get db m "VBen" in
  let* so := param_get db m "VBSO" in
  let* d := py_sub vb so in
  py_add (Some d) (en_shift m).

(** The three conduction-band minima; [BGG], [BGL], [BGX] differ only in
    the key prefix. *)
Inductive valley : Type := Gamma | L | X.

Definition key_en (v : valley) : string :=
  match v with Gamma => "BGGen" | L => "BGLen" | X => "BGXen" end.
Definition key_a (v : valley) : string :=
  match v with Gamma => "BGGa" | L => "BGLa" | X => "BGXa" end.
Definition key_b (v : valley) : string :=
  match v with Gamma => "BGGb" | L => "BGLb" | X => "BGXb" end.

Definition BG (v : valley) (m : mater_pure) (temp : Q) : res val :=
  let* eg := param_get db m (key_en v) in
  let* a := param_get db m (key_a v) in
  let* b := param_get db m (key_b v) in
  varshni temp eg a b.

Definition BGG := BG Gamma.
Definition BGL := BG L.
Definition BGX := BG X.

(** [return (self.VBH() + self.BGG())]: the gap is evaluated at the
    default temperature 300.0, whatever [temp] the caller passed. *)
Definition CB (v : valley) (m : mater_pure) (temp : Q) : res val :=
  let* vb := VBH m in
  let* bg := BG v m 300 in
  py_add (Some vb) (Some bg).

Definition CBG := CB Gamma.
Definition CBL := CB L.
Definition CBX := CB X.

(** [self.param.get('CBGmass', PURESEM[self.name].get('CBGmass'))[0]] *)
Definition mg (m : mater_pure) : res val :=
  let* ms := param_get db m "CBGmass" in
  py_index0 ms.

End Pure.

(** ** [mater_alloy_double] *)

Record mater_alloy_double : Type := {
  aname : string;
  mat1 : mater_pure;
  mat2 : mater_pure;
  aparam : dict
}.

(** [BINALLOY[name]] *)
Definition lookup_alloy (adb : alloy_db) (n : string) : res alloy_rec :=
  match adb !! n with
  | Some r => Ok r
  | None => Err UnknownAlloy
  end.

(** [__init__(matname, overwrite, ovrwrt1, ovrwrt2)]: the only lookup of
    the constructor is [BINALLOY[self.name]['sem']]. *)
Definition make_alloy (adb : alloy_db) (n : string) (ov ov1 ov2 : dict)
    : res mater_alloy_double :=
  let* ar := lookup_alloy adb n in
  Ok {| aname := n;
        mat1 := {| name := fst (sem ar); param := ov1 |};
        mat2 := {| name := snd (sem ar); param := ov2 |};
        aparam := ov |}.

Section Alloy.
Variable db : pure_db.
Variable adb : alloy_db.

(** [self.param.get('VBbow', BINALLOY[self.name].get('VBbow', 0.0))] *)
Definition bow_VB (al : mater_alloy_double) : res (option val) :=
  let* ar := lookup_alloy adb (aname al) in
  Ok (get (aparam al) "VBbow" (get (abow ar) "VBbow" (num 0))).

(** [x * P1 + (1 - x) * P2 - x * (1 - x) * bow], evaluated left to right,
    the component queries being [q1] and [q2]. *)
Definition interp (x : Q) (q1 q2 : res val) (bow : res (option val)) : res val :=
  let* p1 := q1 in
  let* t1 := py_mul (num x) (Some p1) in
  let* p2 := q2 in
  let* t2 := py_mul (num (1 - x)) (Some p2) in
  let* s := py_add (Some t1) (Some t2) in
  let* w := bow in
  let* t3 := py_mul (num (x * (1 - x))) w in
  py_sub (Some s) (Some t3).

Definition mean_VB (al : mater_alloy_double) (x : Q) : res val :=
  interp x (VBH db (mat1 al)) (VBH db (mat2 al)) (bow_VB al).

(** [return (self.param.get('VBen', mean_VB) + self.param.get('EnShift', 0.0))] *)
Definition VBH_alloy (al : mater_alloy_double) (x : Q) : res val :=
  let* mv := mean_VB al x in
  py_add (get (aparam al) "VBen" (Some mv))
         (get (aparam al) "EnShift" (num 0)).

(** [CBG(x)]: computes [mean_CBG] (with the [VBbow] coefficient) and
    falls off the end of the function, so the call returns [None]. *)
Definition CBG_alloy (al : mater_alloy_double) (x : Q) : res (option val) :=
  let* _ := interp x (CBG db (mat1 al) 300) (CBG db (mat2 al) 300) (bow_VB al) in
  Ok None.

End Alloy.

(** ** Queries of a pure-material resolver *)

Inductive query : Type :=
  | QVBH
  | QVBL
  | QVBSO
  | QBG (v : valley) (temp : Q)
  | QCB (v : valley) (temp : Q)
  | Qmg.

Definition run_query (db : pure_db) (q : query) (m : mater_pure) : res val :=
  match q with
  | QVBH => VBH db m
  | QVBL => VBL db m
  | QVBSO => VBSO db m
  | QBG v t => BG db v m t
  | QCB v t => CB db v m t
  | Qmg => mg db m
  end.

(** The keys a query reads with [param.get(k, PURESEM[name].get(k))];
    [EnShift] has the default [0.0] and is never required. *)
Definition required_keys (q : query) : list string :=
  match q with
  | QVBH | QVBL => ["VBen"]
  | QVBSO => ["VBen"; "VBSO"]
  | QBG v _ => [key_en v; key_a v; key_b v]
  | QCB v _ => ["VBen"; key_en v; key_a v; key_b v]
  | Qmg => ["CBGmass"]
  end.

(** Comparing numeric results up to [Qeq]. *)
Definition num_is (r : res val) (q : Q) : Prop :=
  match r with
  | Ok (VNum p) => p == q
  | _ => False
  end.

Definition res_eq (r1 r2 : res val) : Prop :=
  match r1, r2 with
  | Ok (VNum p), Ok (VNum q) => p == q
  | _, _ => False
  end.

(** The valence-band bowing recorded for an alloy, with the [0.0]
    default of [BINALLOY[name].get('VBbow', 0.0)]. *)
Definition vb_bow_zero (ar : alloy_rec) : Prop :=
  match get (abow ar) "VBbow" (num 0) with
  | Some (VNum b) => b == 0
  | _ => False
  end.

(** An error that is neither [UnknownMaterial] nor [MissingParameter]
    (nor [UnknownAlloy]). *)
Definition other_err (e : error) : bool :=
  match e with
  | ZeroDivision | TypeMismatch | IndexOutOfRange => true
  | UnknownMaterial | UnknownAlloy | MissingParameter => false
  end.

Definition ok_or_other {A : Type} (r : res A) : Prop :=
  match r with
  | Ok _ => True
  | Err e => other_err e = true
  end.

(** ** Concrete instances *)

Definition GaAs_plain : mater_pure := {| name := "GaAs"; param := ∅ |}.

(** An alloy override that assigns the valence band and a band shift. *)
Definition ov_VB_shift : dict :=
  <["VBen" := VNum 1]> (<["EnShift" := VNum (1 # 2)]> ∅).

Definition AlGaAs_VB_shift : mater_alloy_double := {|
  aname := "AlGaAs";
  mat1 := {| name := "AlAs"; param := ∅ |};
  mat2 := {| name := "GaAs"; param := ∅ |};
  aparam := ov_VB_shift
|}.

(** An alloy record naming a component that [PURESEM] lacks. *)
Definition adb_InGaAs : alloy_db :=
  <["InGaAs" := {| sem := ("InAs", "GaAs"); abow := ∅ |}]> BINALLOY.

Definition InGaAs_VB : mater_alloy_double := {|
  aname := "InGaAs";
  mat1 := {| name := "InAs"; param := ∅ |};
  mat2 := {| name := "GaAs"; param := ∅ |};
  aparam := {[ "VBen" := VNum 1 ]}
|}.

(** ** [nextnano.py]

    A line of the file is a [list ascii] (ASCII files; Python's
    [str.isspace] on ASCII holds for codes 9-13 and 28-32).  [float()] on a
    token is left abstract as [py_float]; [open] reads a file system
    [fs] mapping paths to contents after newline translation. *)

Definition py_isspace (c : ascii) : bool :=
  let n := nat_of_ascii c in
  (Nat.leb 9 n && Nat.leb n 13) || (Nat.leb 28 n && Nat.leb n 32).

(** One iteration of [for letter in line:], on the state
    [(number, number_list)]. *)
Definition split_step (st : list ascii * list (list ascii)) (letter : ascii)
    : list ascii * list (list ascii) :=
  let '(number, number_list) := st in
  if negb (py_isspace letter) then (number ++ [letter], number_list)
  else match number with
       | [] => (number, number_list)
       | _ => ([], number_list ++ [number])
       end.

(** The row of a line: [number_list] after the loop; a token still in
    [number] at the end of the line is not appended. *)
Definition split_line (line : list ascii) : list (list ascii) :=
  snd (fold_left split_step line ([], [])).

Definition newline : ascii := Ascii.ascii_of_nat 10.

(** The lines a text file yields, each keeping its ['\n']. *)
Fixpoint lines_go (s cur : list ascii) : list (list ascii) :=
  match s with
  | [] => match cur with [] => [] | _ => [cur] end
  | c :: s' =>
      if Ascii.eqb c newline then (cur ++ [c]) :: lines_go s' []
      else lines_go s' (cur ++ [c])
  end.

Definition file_lines (content : list ascii) : list (list ascii) :=
  lines_go content [].

(** [data.readline()] drops the header; every further line is a row. *)
Definition read_rows (content : list ascii) : list (list (list ascii)) :=
  match file_lines content with
  | [] => []
  | _ :: rest => map split_line rest
  end.

Inductive np_error : Type := ValueError | IndexError | OSError.

Inductive npres (A : Type) : Type :=
  | NOk (a : A)
  | NErr (e : np_error).
Arguments NOk {A} a.
Arguments NErr {A} e.

(** A float64 array as [np.array] builds it from a list of rows. *)
Inductive ndarray : Type :=
  | Arr1 (xs : list Q)
  | Arr2 (ncols : nat) (rows : list (list Q)).

Fixpoint map_opt {A B : Type} (f : A -> option B) (l : list A) : option (list B) :=
  match l with
  | [] => Some []
  | x :: l' =>
      match f x, map_opt f l' with
      | Some y, Some ys => Some (y :: ys)
      | _, _ => None
      end
  end.

Section Nextnano.
Variable py_float : list ascii -> option Q.

(** [np.array(return_data, dtype=np.float64)]: an empty list is the 1-D
    array of shape (0,); rows of unequal length, or a token [float()]
    refuses, raise [ValueError]. *)
Definition np_array (rows : list (list (list ascii))) : npres ndarray :=
  match rows with
  | [] => NOk (Arr1 [])
  | r :: _ =>
      if forallb (fun r' => Nat.eqb (length r') (length r)) rows then
        match map_opt (map_opt py_float) rows with
        | Some qs => NOk (Arr2 (length r) qs)
        | None => NErr ValueError
        end
      else NErr ValueError
  end.

Definition read_data (fs : list ascii -> option (list ascii)) (file_name : list ascii)
    : npres ndarray :=
  match fs file_name with
  | None => NErr OSError
  | Some content => np_array (read_rows content)
  end.

End Nextnano.

(** A numpy index [k] on an axis of length [n]: negative indices count
    from the end; anything outside [-n, n) is out of bounds. *)
Definition norm_index (n : nat) (k : Z) : option nat :=
  if (0 <=? k)%Z && (k <? Z.of_nat n)%Z then Some (Z.to_nat k)
  else if (- Z.of_nat n <=? k)%Z && (k <? 0)%Z then Some (Z.to_nat (Z.of_nat n + k))
  else None.

(** [all_data[:, (i, j)]] *)
Definition take_cols (a : ndarray) (i j : Z) : npres (list (list Q)) :=
  match a with
  | Arr1 _ => NErr IndexError
  | Arr2 n rows =>
      match norm_index n i, norm_index n j with
      | Some i', Some j' => NOk (map (fun row => [nth i' row 0; nth j' row 0]) rows)
      | _, _ => NErr IndexError
      end
  end.

Definition wave_func_file : list ascii :=
  list_ascii_of_string "\sg_1band1\cb001_qc001_sg001_deg001_neu.dat".

Definition mass_file : list ascii :=
  list_ascii_of_string "\material_parameters\cb-masses.dat".

Definition load_el_wave_func2 (py_float : list ascii -> option Q)
    (fs : list ascii -> option (list ascii)) (folder : list ascii) (subband_ind : Z)
    : npres (list (list Q)) :=
  match read_data py_float fs (folder ++ wave_func_file) with
  | NErr e => NErr e
  | NOk all_data => take_cols all_data 0 subband_ind
  end.

Definition load_el_mass (py_float : list ascii -> option Q)
    (fs : list ascii -> option (list ascii)) (folder : list ascii)
    : npres (list (list Q)) :=
  match read_data py_float fs (folder ++ mass_file) with
  | NErr e => NErr e
  | NOk all_data => take_cols all_data 0 1
  end.



Definition nonspace (c : ascii) : Prop := py_isspace c = false.

(** ** Helper lemmas *)

Lemma bind_ok {A B : Type} (a : A) (k : A -> res B) :
  bind (Ok a) k = k a.
Proof. reflexivity. Qed.

Lemma bind_err {A B : Type} (e : error) (k : A -> res B) :
  bind (Err e) k = Err e.
Proof. reflexivity. Qed.

Lemma bind_ok_or_other {A B : Type} (m : res A) (k : A -> res B) :
  ok_or_other m -> (forall a, ok_or_other (k a)) -> ok_or_other (bind m k).
Proof. destruct m; simpl; auto. Qed.

Lemma py_add_other a b : ok_or_other (py_add (Some a) (Some b)).
Proof. destruct a, b; simpl; auto. Qed.

Lemma py_sub_other a b : ok_or_other (py_sub (Some a) (Some b)).
Proof. destruct a, b; simpl; auto. Qed.

Lemma py_mul_other a b : ok_or_other (py_mul (Some a) (Some b)).
Proof. destruct a, b; simpl; auto. Qed.

Lemma py_div_other a b : ok_or_other (py_div (Some a) (Some b)).
Proof. destruct a, b; simpl; auto. destruct (Qeq_bool _ 0); simpl; auto. Qed.

Lemma py_index0_other a : ok_or_other (py_index0 (Some a)).
Proof. destruct a as [|[|]]; simpl; auto. Qed.

Lemma varshni_other t eg a b :
  ok_or_other (varshni t (Some eg) (Some a) (Some b)).
Proof.
  unfold varshni.
  apply bind_ok_or_other; [apply py_mul_other|intros p].
  apply bind_ok_or_other; [apply py_add_other|intros s].
  apply bind_ok_or_other; [apply py_div_other|intros d].
  apply py_sub_other.
Qed.

Lemma en_shift_some m : exists w, en_shift m = Some w.
Proof. unfold en_shift, get. destruct (param m !! "EnShift"); eauto. Qed.

Lemma param_get_unknown db m k :
  db !! name m = None -> param_get db m k = Err UnknownMaterial.
Proof. intros E. unfold param_get, lookup_pure. rewrite E. reflexivity. Qed.

Lemma param_get_known db m r k :
  db !! name m = Some r -> param_get db m k = Ok (get (param m) k (r !! k)).
Proof. intros E. unfold param_get, lookup_pure. rewrite E. reflexivity. Qed.

Lemma param_get_present db m r k :
  db !! name m = Some r -> is_Some (r !! k) ->
  exists w, param_get db m k = Ok (Some w).
Proof.
  intros E [v Hv]. rewrite (param_get_known db m r k E).
  unfold get. rewrite Hv. destruct (param m !! k); eauto.
Qed.

(** Every query first indexes the database with the material name. *)
Lemma query_unknown db q m :
  db !! name m = None -> run_query db q m = Err UnknownMaterial.
Proof.
  intros E. destruct q; simpl;
    unfold VBH, VBL, VBSO, BG, CB, VBH, mg;
    rewrite (param_get_unknown db m _ E); reflexivity.
Qed.

Ltac get_present E K k :=
  let w := fresh "w" in
  let Hw := fresh "Hw" in
  destruct (param_get_present _ _ _ k E (K k ltac:(simpl; tauto))) as [w Hw];
  rewrite Hw, bind_ok.

(** With every required key present in the record, a query fails, if at
    all, with an arithmetic error. *)
Lemma query_other db q m r :
  db !! name m = Some r ->
  (forall k, In k (required_keys q) -> is_Some (r !! k)) ->
  ok_or_other (run_query db q m).
Proof.
  intros E K. destruct q; simpl in *.
  - unfold VBH. get_present E K "VBen".
    destruct (en_shift_some m) as [s Hs]. rewrite Hs. apply py_add_other.
  - unfold VBL. get_present E K "VBen".
    destruct (en_shift_some m) as [s Hs]. rewrite Hs. apply py_add_other.
  - unfold VBSO. get_present E K "VBen". get_present E K "VBSO".
    apply bind_ok_or_other; [apply py_sub_other|intros d].
    destruct (en_shift_some m) as [s Hs]. rewrite Hs. apply py_add_other.
  - unfold BG.
    get_present E K (key_en v). get_present E K (key_a v). get_present E K (key_b v).
    apply varshni_other.
  - unfold CB, VBH. get_present E K "VBen".
    destruct (en_shift_some m) as [s Hs]. rewrite Hs.
    apply bind_ok_or_other; [apply py_add_other|intros h].
    unfold BG.
    get_present E K (key_en v). get_present E K (key_a v). get_present E K (key_b v).
    apply bind_ok_or_other; [apply varshni_other|intros g].
    apply py_add_other.
  - unfold mg. get_present E K "CBGmass". apply py_index0_other.
Qed.

Lemma PURESEM_cases n r :
  PURESEM !! n = Some r ->
  (n = "GaAs" /\ r = GaAs_rec) \/ (n = "AlAs" /\ r = AlAs_rec).
Proof.
  unfold PURESEM. rewrite !lookup_insert_Some, lookup_empty. naive_solver.
Qed.

Lemma BINALLOY_cases n ar :
  BINALLOY !! n = Some ar -> n = "AlGaAs" /\ ar = AlGaAs_rec.
Proof.
  unfold BINALLOY. rewrite lookup_insert_Some, lookup_empty. naive_solver.
Qed.

(** Every database record defines every key any query requires. *)
Lemma PURESEM_complete n r q k :
  PURESEM !! n = Some r -> In k (required_keys q) -> is_Some (r !! k).
Proof.
  intros E Hk. apply PURESEM_cases in E.
  destruct E as [[_ ->]|[_ ->]];
    destruct q as [| | |[| |] ?|[| |] ?|]; simpl in Hk;
    repeat (destruct Hk as [<-|Hk]; [vm_compute; eauto|]); contradiction.
Qed.

(** ** Pure-material resolver *)

(** C10: a resolver whose name is absent from the pure-material database
    fails every query with [UnknownMaterial], whatever its override set
    supplies: [PURESEM[self.name]] is evaluated before the override is
    consulted. *)
Theorem unknown_name_fails_despite_overrides (db : pure_db) (q : query)
    (m : mater_pure) :
  db !! name m = None -> run_query db q m = Err UnknownMaterial.
Proof. apply query_unknown. Qed.

(** C4: on the pure-material database, a query fails with
    [UnknownMaterial] exactly when the name is absent, and with
    [MissingParameter] exactly when the name is present but a required key
    is defined neither by the override set nor by the record. *)
Theorem pure_query_errors (m : mater_pure) (q : query) :
  (run_query PURESEM q m = Err UnknownMaterial <-> PURESEM !! name m = None) /\
  (run_query PURESEM q m = Err MissingParameter <->
     exists r, PURESEM !! name m = Some r /\
       exists k, In k (required_keys q) /\ param m !! k = None /\ r !! k = None).
Proof.
  destruct (PURESEM !! name m) as [r|] eqn:E.
  - pose proof (query_other PURESEM q m r E
                  (fun k Hk => PURESEM_complete _ _ q k E Hk)) as Hob.
    split; split.
    + intros Hq. rewrite Hq in Hob. discriminate.
    + discriminate.
    + intros Hq. rewrite Hq in Hob. discriminate.
    + intros (r' & E' & k & Hk & _ & Hr). injection E' as <-.
      destruct (PURESEM_complete _ _ q k E Hk) as [v Hv]. congruence.
  - rewrite (query_unknown PURESEM q m E). split; split.
    + reflexivity.
    + reflexivity.
    + discriminate.
    + intros (r & E' & _). discriminate.
Qed.

(** C5: override precedence is per key.  With only [BGGa] overridden
    among the Gamma Varshni keys, [BGG(T)] is the Varshni value at the
    overriding alpha and the record's [BGGen] and [BGGb]. *)
Theorem override_alpha_only (db : pure_db) (m : mater_pure) (r : dict)
    (va : val) (T : Q) :
  db !! name m = Some r ->
  param m !! "BGGen" = None ->
  param m !! "BGGb" = None ->
  param m !! "BGGa" = Some va ->
  BGG db m T = varshni T (r !! "BGGen") (Some va) (r !! "BGGb").
Proof.
  intros E Hen Hb Ha. unfold BGG, BG. simpl.
  rewrite !(param_get_known db m r _ E), !bind_ok.
  unfold get. rewrite Hen, Hb, Ha. reflexivity.
Qed.

(** C7: for every material of the database and every valley, the gap at
    [T = 0] with no override is the recorded zero-temperature gap. *)
Theorem band_gap_at_zero (n : string) (r : dict) (v : valley) :
  PURESEM !! n = Some r ->
  match r !! key_en v with
  | Some (VNum eg) => num_is (BG PURESEM v {| name := n; param := ∅ |} 0) eg
  | _ => False
  end.
Proof.
  intros E. pose proof (PURESEM_cases n r E) as [[-> ->]|[-> ->]];
    destruct v; vm_compute; reflexivity.
Qed.

(** C8: with no override, the spin-orbit band is the heavy-hole band
    minus the recorded splitting; for GaAs it is [1.46 - 0.341 = 1.119]. *)
Theorem spin_orbit_band (n : string) (r : dict) :
  PURESEM !! n = Some r ->
  match VBH PURESEM {| name := n; param := ∅ |},
        VBSO PURESEM {| name := n; param := ∅ |}, r !! "VBSO" with
  | Ok (VNum h), Ok (VNum s), Some (VNum so) => s == h - so
  | _, _, _ => False
  end /\
  num_is (VBSO PURESEM {| name := "GaAs"; param := ∅ |}) (dec 1119 1000) /\
  dec 146 100 - dec 341 1000 == dec 1119 1000.
Proof.
  intros E. split; [|split; vm_compute; reflexivity].
  pose proof (PURESEM_cases n r E) as [[-> ->]|[-> ->]];
    vm_compute; reflexivity.
Qed.

(** C2: [CBG(temp)] (and [CBL], [CBX]) evaluates the gap at the default
    300 K whatever temperature it is given; for GaAs at [T = 0] it differs
    from [VBH() + BGG(0)]. *)
Theorem conduction_band_ignores_temp :
  (forall (db : pure_db) (v : valley) (m : mater_pure) (T : Q),
     CB db v m T = CB db v m 300) /\
  num_is (CBG PURESEM {| name := "GaAs"; param := ∅ |} 0)
         (dec 146 100 + (dec 1519 1000 - dec 5405 10000000 * 90000 / 504)) /\
  num_is (let* vb := VBH PURESEM {| name := "GaAs"; param := ∅ |} in
          let* bg := BGG PURESEM {| name := "GaAs"; param := ∅ |} 0 in
          py_add (Some vb) (Some bg))
         (dec 146 100 + dec 1519 1000) /\
  ~ (dec 146 100 + (dec 1519 1000 - dec 5405 10000000 * 90000 / 504)
     == dec 146 100 + dec 1519 1000).
Proof.
  split; [reflexivity|].
  split; [vm_compute; reflexivity|].
  split; [vm_compute; reflexivity|].
  vm_compute. discriminate.
Qed.

(** ** Alloy resolver *)

(** The interpolation law of [VBH(x)] when the alloy override supplies
    neither [VBen] nor [EnShift]. *)
Lemma VBH_alloy_interp db adb al x a b w :
  VBH db (mat1 al) = Ok (VNum a) ->
  VBH db (mat2 al) = Ok (VNum b) ->
  bow_VB adb al = Ok (Some (VNum w)) ->
  aparam al !! "VBen" = None ->
  aparam al !! "EnShift" = None ->
  VBH_alloy db adb al x = Ok (VNum (x * a + (1 - x) * b - x * (1 - x) * w + 0)).
Proof.
  intros H1 H2 Hw Hv Hs. unfold VBH_alloy, mean_VB, interp.
  rewrite H1, H2, Hw. simpl. unfold get. rewrite Hv, Hs. reflexivity.
Qed.

(** C6: for every alloy of the database with zero valence-band bowing and
    no override at any level, [VBH(0)] is component b's [VBH()] and
    [VBH(1)] is component a's. *)
Theorem alloy_VBH_endpoints (n : string) (ar : alloy_rec)
    (al : mater_alloy_double) :
  BINALLOY !! n = Some ar ->
  vb_bow_zero ar ->
  make_alloy BINALLOY n ∅ ∅ ∅ = Ok al ->
  res_eq (VBH_alloy PURESEM BINALLOY al 0) (VBH PURESEM (mat2 al)) /\
  res_eq (VBH_alloy PURESEM BINALLOY al 1) (VBH PURESEM (mat1 al)).
Proof.
  intros E _ Hal. destruct (BINALLOY_cases n ar E) as [-> ->].
  vm_compute in Hal. injection Hal as <-.
  rewrite !(VBH_alloy_interp PURESEM BINALLOY _ _ (dec 95 100 + 0)
                              (dec 146 100 + 0) 0) by (vm_compute; reflexivity).
  vm_compute. split; reflexivity.
Qed.

(** C3 (as the code has it): when the alloy override supplies [VBen],
    [VBH(x)] still evaluates the interpolated mean (a failure there fails
    the query), discards its value, and returns the supplied value plus the
    alloy-level [EnShift] (override-or-0.0). *)
Theorem alloy_VBH_override (db : pure_db) (adb : alloy_db)
    (al : mater_alloy_double) (x : Q) (v : val) :
  aparam al !! "VBen" = Some v ->
  VBH_alloy db adb al x =
    (let* _ := mean_VB db adb al x in
     py_add (Some v) (get (aparam al) "EnShift" (num 0))).
Proof.
  intros Hv. unfold VBH_alloy.
  destruct (mean_VB db adb al x); simpl; [|reflexivity].
  unfold get at 1. rewrite Hv. reflexivity.
Qed.

(** C9: whatever the alloy override (in particular when it supplies
    [VBen]), a failure of either component's [VBH()] fails [VBH(x)]:
    component a's error is the query's error, and so is component b's
    when component a yields a number. *)
Theorem alloy_VBH_component_failure (db : pure_db) (adb : alloy_db)
    (al : mater_alloy_double) (x : Q) (e : error) :
  (VBH db (mat1 al) = Err e -> VBH_alloy db adb al x = Err e) /\
  (VBH db (mat2 al) = Err e -> exists e', VBH_alloy db adb al x = Err e') /\
  (forall p, VBH db (mat1 al) = Ok (VNum p) -> VBH db (mat2 al) = Err e ->
   VBH_alloy db adb al x = Err e).
Proof.
  unfold VBH_alloy, mean_VB, interp. split; [|split].
  - intros H1. rewrite H1. reflexivity.
  - intros H2. destruct (VBH db (mat1 al)) as [[p|l]|e1]; simpl; eauto.
    rewrite H2. simpl. eauto.
  - intros p H1 H2. rewrite H1. simpl. rewrite H2. reflexivity.
Qed.

(** C1: the alloy [CBG(x)] never returns a number: it computes [mean_CBG]
    and returns [None] (or fails); for AlGaAs at [x = 0.3] it returns
    [None]. *)
Theorem alloy_CBG_returns_none :
  (forall (db : pure_db) (adb : alloy_db) (al : mater_alloy_double) (x : Q),
     match CBG_alloy db adb al x with
     | Ok (Some _) => False
     | _ => True
     end) /\
  (let* al := make_alloy BINALLOY "AlGaAs" ∅ ∅ ∅ in
   CBG_alloy PURESEM BINALLOY al (3 # 10)) = Ok None.
Proof.
  split; [|vm_compute; reflexivity].
  intros db adb al x. unfold CBG_alloy.
  destruct (interp _ _ _ _); simpl; exact I.
Qed.

Lemma unknown_name_fails_despite_overrides_witness :
  PURESEM !! "InAs" = None /\
  run_query PURESEM (QBG Gamma 300)
    {| name := "InAs";
       param := list_to_map [("BGGen", VNum (dec 417 1000));
                             ("BGGa", VNum (dec 276 1000000));
                             ("BGGb", VNum 93)] |}
  = Err UnknownMaterial.
Proof.
  split; [reflexivity|].
  apply unknown_name_fails_despite_overrides. reflexivity.
Defined.

Lemma override_alpha_only_witness :
  let m := {| name := "GaAs"; param := {[ "BGGa" := VNum (dec 1 1000) ]} |} in
  BGG PURESEM m 300 =
    varshni 300 (GaAs_rec !! "BGGen") (Some (VNum (dec 1 1000)))
            (GaAs_rec !! "BGGb").
Proof.
  apply override_alpha_only; vm_compute; reflexivity.
Defined.

Lemma band_gap_at_zero_witness :
  match GaAs_rec !! key_en L with
  | Some (VNum eg) => num_is (BG PURESEM L GaAs_plain 0) eg
  | _ => False
  end.
Proof.
  apply (band_gap_at_zero "GaAs" GaAs_rec L). reflexivity.
Defined.

Lemma spin_orbit_band_witness :
  match VBH PURESEM {| name := "AlAs"; param := ∅ |},
        VBSO PURESEM {| name := "AlAs"; param := ∅ |}, AlAs_rec !! "VBSO" with
  | Ok (VNum h), Ok (VNum s), Some (VNum so) => s == h - so
  | _, _, _ => False
  end.
Proof.
  apply (spin_orbit_band "AlAs" AlAs_rec). reflexivity.
Defined.

Lemma alloy_VBH_endpoints_witness :
  let al := {| aname := "AlGaAs";
               mat1 := {| name := "AlAs"; param := ∅ |};
               mat2 := {| name := "GaAs"; param := ∅ |};
               aparam := ∅ |} in
  res_eq (VBH_alloy PURESEM BINALLOY al 0) (VBH PURESEM (mat2 al)) /\
  res_eq (VBH_alloy PURESEM BINALLOY al 1) (VBH PURESEM (mat1 al)).
Proof.
  apply (alloy_VBH_endpoints "AlGaAs" AlGaAs_rec); vm_compute;
    reflexivity.
Defined.

(** The claim that a supplied [VBen] is returned unchanged fails for
    AlGaAs at [x = 0.3] with [{VBen: 1.0, EnShift: 0.5}]: the query
    returns 1.5. *)
Lemma alloy_VBH_override_unchanged_counterexample :
  make_alloy BINALLOY "AlGaAs" ov_VB_shift ∅ ∅ = Ok AlGaAs_VB_shift /\
  ov_VB_shift !! "VBen" = Some (VNum 1) /\
  num_is (VBH_alloy PURESEM BINALLOY AlGaAs_VB_shift (3 # 10)) (3 # 2) /\
  ~ num_is (VBH_alloy PURESEM BINALLOY AlGaAs_VB_shift (3 # 10)) 1.
Proof.
  split; [reflexivity|]. split; [reflexivity|].
  split; vm_compute; [reflexivity|discriminate].
Qed.

Lemma alloy_VBH_override_witness :
  VBH_alloy PURESEM BINALLOY AlGaAs_VB_shift (3 # 10) =
    (let* _ := mean_VB PURESEM BINALLOY AlGaAs_VB_shift (3 # 10) in
     py_add (Some (VNum 1)) (get ov_VB_shift "EnShift" (num 0))).
Proof.
  apply (alloy_VBH_override PURESEM BINALLOY AlGaAs_VB_shift (3 # 10) (VNum 1)).
  reflexivity.
Defined.

Lemma alloy_VBH_component_failure_witness :
  make_alloy adb_InGaAs "InGaAs" {[ "VBen" := VNum 1 ]} ∅ ∅ = Ok InGaAs_VB /\
  VBH PURESEM (mat1 InGaAs_VB) = Err UnknownMaterial /\
  VBH_alloy PURESEM adb_InGaAs InGaAs_VB (3 # 10) = Err UnknownMaterial.
Proof.
  split; [reflexivity|]. split; [reflexivity|].
  apply (alloy_VBH_component_failure PURESEM adb_InGaAs InGaAs_VB (3 # 10)
           UnknownMaterial).
  reflexivity.
Defined.

(** ** [nextnano.read_data] and the column loaders *)

Lemma split_fold_nonspace (t number : list ascii) (nl : list (list ascii)) :
  Forall nonspace t ->
  fold_left split_step t (number, nl) = (number ++ t, nl).
Proof.
  revert number. induction t as [|c t IH]; intros number Ht; simpl.
  - rewrite app_nil_r. reflexivity.
  - inversion Ht as [|? ? Hc Ht']; subst. unfold nonspace in Hc.
    rewrite Hc. simpl. rewrite IH by exact Ht'. rewrite <- app_assoc. reflexivity.
Qed.

Lemma split_fold_acc (b number : list ascii) (nl : list (list ascii)) :
  fold_left split_step b (number, nl) =
  (fst (fold_left split_step b (number, [])),
   nl ++ snd (fold_left split_step b (number, []))).
Proof.
  revert number nl. induction b as [|c b IH]; intros number nl; simpl.
  - rewrite app_nil_r. reflexivity.
  - destruct (py_isspace c); simpl.
    + destruct number as [|d number].
      * apply IH.
      * rewrite IH, (IH [] [d :: number]). simpl. rewrite <- app_assoc. reflexivity.
    + apply IH.
Qed.

Lemma split_fold_after_space (p : list ascii) (c : ascii) st :
  py_isspace c = true -> fst (fold_left split_step (p ++ [c]) st) = [].
Proof.
  intros Hc. rewrite fold_left_app. simpl.
  destruct (fold_left split_step p st) as [number nl]. simpl.
  rewrite Hc. simpl. destruct number; reflexivity.
Qed.

Lemma split_fold_tokens (line : list ascii) st :
  Forall nonspace (fst st) ->
  (forall t, In t (snd st) -> t <> [] /\ Forall nonspace t) ->
  forall t, In t (snd (fold_left split_step line st)) ->
  t <> [] /\ Forall nonspace t.
Proof.
  revert st. induction line as [|c line IH]; intros [number nl] Hn Hl; simpl in *.
  - exact Hl.
  - apply IH; destruct (py_isspace c) eqn:Hc; simpl.
    + destruct number; simpl; constructor.
    + apply Forall_app. split; [exact Hn|]. constructor; [exact Hc|constructor].
    + destruct number as [|d number]; simpl; [exact Hl|].
      intros t Ht. apply in_app_or in Ht as [Ht|[<-|[]]]; [auto|].
      split; [discriminate|exact Hn].
    + exact Hl.
Qed.

Lemma split_fold_concat (line : list ascii) st :
  concat (snd (fold_left split_step line st)) ++ fst (fold_left split_step line st) =
  concat (snd st) ++ fst st ++ List.filter (fun c => negb (py_isspace c)) line.
Proof.
  revert st. induction line as [|c line IH]; intros [number nl]; simpl.
  - rewrite app_nil_r. reflexivity.
  - rewrite IH. destruct (py_isspace c); simpl.
    + destruct number as [|d number]; simpl; [reflexivity|].
      rewrite concat_app. simpl. rewrite app_nil_r, <- !app_assoc. reflexivity.
    + rewrite <- !app_assoc. reflexivity.
Qed.

Lemma lines_go_header (h rest cur : list ascii) :
  ~ In newline h ->
  lines_go (h ++ newline :: rest) cur = (cur ++ h ++ [newline]) :: lines_go rest [].
Proof.
  revert cur. induction h as [|c h IH]; intros cur Hh; simpl.
  - destruct (Ascii.eqb_spec newline newline) as [_|Hn]; [reflexivity|congruence].
  - destruct (Ascii.eqb_spec c newline) as [->|Hc].
    + exfalso. apply Hh. left. reflexivity.
    + rewrite IH by (intros H; apply Hh; right; exact H).
      rewrite <- app_assoc. reflexivity.
Qed.

Lemma lines_go_last (l cur : list ascii) :
  ~ In newline l -> cur ++ l <> [] -> lines_go l cur = [cur ++ l].
Proof.
  revert cur. induction l as [|c l IH]; intros cur Hl Hne; simpl.
  - rewrite app_nil_r in *. destruct cur; [contradiction|reflexivity].
  - destruct (Ascii.eqb_spec c newline) as [->|Hc].
    + exfalso. apply Hl. left. reflexivity.
    + rewrite IH.
      * rewrite <- app_assoc. reflexivity.
      * intros H; apply Hl; right; exact H.
      * destruct cur; discriminate.
Qed.

(** Every token of a row is non-empty and holds no whitespace. *)
Theorem split_line_tokens (line t : list ascii) :
  In t (split_line line) -> t <> [] /\ Forall nonspace t.
Proof.
  apply split_fold_tokens; simpl; [constructor|intros _ []].
Qed.

(** A line that ends in whitespace loses nothing: its tokens concatenate
    to its non-whitespace characters, in order. *)
Theorem split_line_concat (p : list ascii) (c : ascii) :
  py_isspace c = true ->
  concat (split_line (p ++ [c])) =
  List.filter (fun c => negb (py_isspace c)) (p ++ [c]).
Proof.
  intros Hc. unfold split_line.
  pose proof (split_fold_concat (p ++ [c]) ([], [])) as E.
  rewrite (split_fold_after_space p c _ Hc), app_nil_r in E. exact E.
Qed.

(** A trailing run of non-whitespace characters with no whitespace after
    it is never appended: [split_line (p ++ t) = split_line p]. *)
Theorem split_line_drops_unterminated (p t : list ascii) :
  Forall nonspace t -> split_line (p ++ t) = split_line p.
Proof.
  intros Ht. unfold split_line. rewrite fold_left_app.
  destruct (fold_left split_step p ([], [])) as [number nl].
  rewrite split_fold_nonspace by exact Ht. reflexivity.
Qed.

(** Splitting distributes over a cut made just after whitespace. *)
Theorem split_line_app (p : list ascii) (c : ascii) (b : list ascii) :
  py_isspace c = true ->
  split_line ((p ++ [c]) ++ b) = split_line (p ++ [c]) ++ split_line b.
Proof.
  intros Hc. unfold split_line. rewrite fold_left_app.
  destruct (fold_left split_step (p ++ [c]) ([], [])) as [number nl] eqn:E.
  pose proof (split_fold_after_space p c ([], []) Hc) as Hn.
  rewrite E in Hn. simpl in Hn. subst number.
  rewrite split_fold_acc. reflexivity.
Qed.

(** The header line never becomes a row: the rows are the split lines
    after the first ['\n']. *)
Theorem read_rows_skips_header (h rest : list ascii) :
  ~ In newline h ->
  read_rows (h ++ newline :: rest) = map split_line (file_lines rest).
Proof.
  intros Hh. unfold read_rows, file_lines.
  rewrite lines_go_header by exact Hh. reflexivity.
Qed.

(** A last line without a trailing newline loses its final token:
    for [header\nl t] with [t] free of whitespace, the only row is the
    split of [l]. *)
Theorem read_rows_last_line_loses_token (h l t : list ascii) :
  ~ In newline h -> ~ In newline (l ++ t) -> l ++ t <> [] ->
  Forall nonspace t ->
  read_rows (h ++ newline :: l ++ t) = [split_line l].
Proof.
  intros Hh Hl Hne Ht. unfold read_rows, file_lines.
  rewrite lines_go_header by exact Hh.
  rewrite lines_go_last by assumption. simpl.
  rewrite split_line_drops_unterminated by exact Ht. reflexivity.
Qed.



(** A file with no data row (empty, or header only) gives the 1-D empty
    array, and both loaders fail with [IndexError] instead of returning an
    empty table. *)
Theorem loaders_fail_without_rows (py_float : list ascii -> option Q)
    (fs : list ascii -> option (list ascii)) (folder content : list ascii) (k : Z) :
  read_rows content = [] ->
  (fs (folder ++ wave_func_file) = Some content ->
   load_el_wave_func2 py_float fs folder k = NErr IndexError) /\
  (fs (folder ++ mass_file) = Some content ->
   load_el_mass py_float fs folder = NErr IndexError).
Proof.
  intros Hr. unfold load_el_wave_func2, load_el_mass, read_data.
  split; intros Hf; rewrite Hf, Hr; reflexivity.
Qed.

(** ** Further properties of [struct.py] and [equat.varshni] *)

(** [VBL] and [VBH] have the same body: the light-hole and heavy-hole
    band edges coincide for every material and override set. *)
Theorem VBL_eq_VBH (db : pure_db) (m : mater_pure) : VBL db m = VBH db m.
Proof. reflexivity. Qed.








(** The alloy valence band when the alloy override does not assign
    [VBen]: [x*a + (1-x)*b - x*(1-x)*w + s], with [w] the bowing the
    override gives, else the record's, else 0.0, and [s] the alloy
    [EnShift], else 0.0. *)
Theorem alloy_VBH_interpolation (db : pure_db) (adb : alloy_db)
    (al : mater_alloy_double) (x : Q) (ar : alloy_rec) (a b w s : Q) :
  VBH db (mat1 al) = Ok (VNum a) ->
  VBH db (mat2 al) = Ok (VNum b) ->
  adb !! aname al = Some ar ->
  get (aparam al) "VBbow" (get (abow ar) "VBbow" (num 0)) = Some (VNum w) ->
  aparam al !! "VBen" = None ->
  get (aparam al) "EnShift" (num 0) = Some (VNum s) ->
  num_is (VBH_alloy db adb al x) (x * a + (1 - x) * b - x * (1 - x) * w + s).
Proof.
  intros H1 H2 Ha Hw Hv Hs.
  unfold VBH_alloy, mean_VB, interp, bow_VB, lookup_alloy.
  rewrite H1, H2, Ha. simpl. rewrite Hw. simpl.
  unfold get at 1. rewrite Hv. rewrite Hs. simpl. reflexivity.
Qed.


(** ** Witnesses of the further properties *)

Ltac not_in_tac :=
  let H := fresh "H" in
  intro H; vm_compute in H;
  repeat (destruct H as [H|H]; [discriminate H|]); exact H.

Lemma split_line_tokens_witness :
  In (list_ascii_of_string "12")
     (split_line (list_ascii_of_string " a 12" ++ [newline])) /\
  (list_ascii_of_string "12" <> [] /\ Forall nonspace (list_ascii_of_string "12")).
Proof.
  assert (H : In (list_ascii_of_string "12")
                 (split_line (list_ascii_of_string " a 12" ++ [newline])))
    by (vm_compute; tauto).
  split; [exact H|]. exact (split_line_tokens _ _ H).
Defined.

Lemma split_line_concat_witness :
  concat (split_line (list_ascii_of_string "a  bc" ++ [" "%char])) =
  List.filter (fun c => negb (py_isspace c)) (list_ascii_of_string "a  bc" ++ [" "%char]).
Proof.
  apply split_line_concat. reflexivity.
Defined.

Lemma split_line_drops_unterminated_witness :
  split_line (list_ascii_of_string "1 2 " ++ list_ascii_of_string "34") =
  split_line (list_ascii_of_string "1 2 ").
Proof.
  apply split_line_drops_unterminated. repeat constructor.
Defined.

Lemma split_line_app_witness :
  split_line ((list_ascii_of_string "1" ++ [" "%char]) ++ list_ascii_of_string "2 ") =
  split_line (list_ascii_of_string "1" ++ [" "%char]) ++
  split_line (list_ascii_of_string "2 ").
Proof.
  apply split_line_app. reflexivity.
Defined.

Lemma read_rows_skips_header_witness :
  read_rows (list_ascii_of_string "z psi" ++ newline :: list_ascii_of_string "0 1 ") =
  map split_line (file_lines (list_ascii_of_string "0 1 ")).
Proof.
  apply read_rows_skips_header. not_in_tac.
Defined.

Lemma read_rows_last_line_loses_token_witness :
  read_rows (list_ascii_of_string "z psi" ++ newline ::
             list_ascii_of_string "0.5 " ++ list_ascii_of_string "1.5") =
  [split_line (list_ascii_of_string "0.5 ")].
Proof.
  apply read_rows_last_line_loses_token.
  - not_in_tac.
  - not_in_tac.
  - discriminate.
  - repeat constructor.
Defined.


Lemma loaders_fail_without_rows_witness :
  load_el_wave_func2 (fun _ => Some 0)
    (fun _ => Some (list_ascii_of_string "z psi" ++ [newline]))
    (list_ascii_of_string "C:\run") 1 = NErr IndexError.
Proof.
  apply (loaders_fail_without_rows _ _ _ (list_ascii_of_string "z psi" ++ [newline]));
    reflexivity.
Defined.




Lemma alloy_VBH_interpolation_witness :
  let al := {| aname := "AlGaAs";
               mat1 := {| name := "AlAs"; param := ∅ |};
               mat2 := {| name := "GaAs"; param := ∅ |};
               aparam := <["VBbow" := VNum (dec 2 10)]> {[ "EnShift" := VNum (dec 1 10) ]} |} in
  num_is (VBH_alloy PURESEM BINALLOY al (dec 3 10))
         (dec 3 10 * (dec 95 100 + 0) + (1 - dec 3 10) * (dec 146 100 + 0)
          - dec 3 10 * (1 - dec 3 10) * dec 2 10 + dec 1 10).
Proof.
  apply (alloy_VBH_interpolation _ _ _ _ AlGaAs_rec); vm_compute; reflexivity.
Defined.

